(** * tcp_echo.cc: the rate-controlled TCP client and the latency recorder

    A shallow embedding of [CustomTcpClient] and [PacketReceived] from
    [src/tcp_echo.cc], together with the small part of the ns-3 event
    scheduler that the client drives ([Simulator::Now], [Simulator::Schedule]).

    Integers are mathematical integers with the wrap-around of the C++ type
    written out where the source computes in that type. *)

From Stdlib Require Import ZArith List Lia Bool QArith Qround Qreduction.
From Stdlib Require Strings.Byte.
Import ListNotations.
Open Scope Z_scope.

(** ** Fixed-width integers *)

Definition to_uint32 (x : Z) : Z := x mod 2 ^ 32.
Definition to_uint64 (x : Z) : Z := x mod 2 ^ 64.

(** [sizeof(uint64_t)] *)
Definition sizeof_uint64 : nat := 8.

(** ** Object representation of an integer

    The sender passes the address of [timestampNs] as a byte pointer, the
    receiver copies into one: both use the object representation of a
    [uint64_t], whose byte order is the host's. *)

Inductive ByteOrder := LittleEndian | BigEndian.

Definition byte_of_Z (z : Z) : Byte.byte :=
  match Byte.of_N (Z.to_N (z mod 256)) with
  | Some b => b
  | None => Byte.x00
  end.

Definition Z_of_byte (b : Byte.byte) : Z := Z.of_N (Byte.to_N b).

Fixpoint le_bytes (n : nat) (v : Z) : list Byte.byte :=
  match n with
  | O => []
  | S k => byte_of_Z v :: le_bytes k (v / 256)
  end.

Fixpoint le_value (bs : list Byte.byte) : Z :=
  match bs with
  | [] => 0
  | b :: rest => Z_of_byte b + 256 * le_value rest
  end.

Definition object_bytes (o : ByteOrder) (n : nat) (v : Z) : list Byte.byte :=
  match o with
  | LittleEndian => le_bytes n v
  | BigEndian => rev (le_bytes n v)
  end.

Definition object_value (o : ByteOrder) (bs : list Byte.byte) : Z :=
  match o with
  | LittleEndian => le_value bs
  | BigEndian => le_value (rev bs)
  end.

(** ** ns-3 types used by the program *)

(** Modelled from the spec: [ns3::Time] is declared by ns-3, not under src/.
    The spec's VirtualTime is an instant of simulated time at nanosecond
    resolution, comparable and subtractable; it is a count of nanoseconds. *)
Definition Time := Z.

Definition NanoSeconds (ns : Z) : Time := ns.
Definition GetNanoSeconds (t : Time) : Z := t.

(** Modelled from the spec: [ns3::Packet] is declared by ns-3; a payload is a
    byte buffer.  [Create<Packet>(buffer, size)] copies [size] bytes of
    [buffer], [CopyData(buffer, size)] copies out at most [size] bytes from
    the start of the payload. *)
Definition Packet := list Byte.byte.

Definition CreatePacket (buffer : list Byte.byte) (size : nat) : Packet :=
  firstn size buffer.
Definition GetSize (p : Packet) : Z := Z.of_nat (length p).
Definition CopyData (p : Packet) (size : nat) : list Byte.byte :=
  firstn size p.

Record Address := InetSocketAddress { GetIpv4 : Z; GetPort : Z }.

(** [Ptr<Socket>]: the handle is [Some] socket or null. *)
Variant Socket : Set := TcpSocket.

Inductive LogLevel := LOG_INFO | LOG_WARN.

(** The host: byte order, the [double] type and the ns-3 conversions between
    [Time] and seconds, whose rounding belongs to ns-3 and to the FPU. *)
Class Ns3Host := {
  host_order : ByteOrder;
  double : Type;
  dzero : double;
  dle : double -> double -> Prop;
  (** [1.0 / rate] *)
  one_over : Z -> double;
  Seconds : double -> Time;
  GetSeconds : Time -> double;
  GetSeconds_zero : GetSeconds 0 = dzero;
  GetSeconds_nonneg : forall t : Time, 0 <= t -> dle dzero (GetSeconds t)
}.

(** ** The program *)

Inductive Event :=
| StartApplicationEv
| StopApplicationEv
| ConnectionSucceededEv
| ConnectionFailedEv
| SendPacketEv.

Section Program.
Context {host : Ns3Host}.

Inductive LogMsg :=
| ConnectionSucceededMsg
| ConnectionFailedMsg
| SocketNullMsg
| SendingPacketMsg (number : Z) (sendTime : Time)
| PacketReceivedMsg (from : Z) (size : Z) (sendTime receiveTime : Time)
                    (latency : double)
| InsufficientSizeMsg.

(** What a member function does to the outside, in program order. *)
Inductive Action :=
| SocketConnect (s : Socket) (a : Address)
| SocketSetConnectCallback (s : Socket)
| SocketSend (s : Socket) (p : Packet)
| SocketClose (s : Socket)
| SimulatorSchedule (delay : Time) (e : Event)
| NsLog (l : LogLevel) (m : LogMsg).

Record CustomTcpClient := {
  m_socket : option Socket;
  m_serverAddress : Address;
  m_packetSize : Z;
  m_numPackets : Z;
  m_interval : Time;
  m_packetsSent : Z;
  m_connected : bool
}.

(** The constructor initialises [m_socket], [m_connected] and [m_packetsSent];
    the two counters it leaves uninitialised hold whatever they are given. *)
Definition CreateObject (packetSize0 numPackets0 : Z) : CustomTcpClient :=
  {| m_socket := None;
     m_serverAddress := InetSocketAddress 0 0;
     m_packetSize := packetSize0;
     m_numPackets := numPackets0;
     m_interval := 0;
     m_packetsSent := 0;
     m_connected := false |}.

Definition Setup (c : CustomTcpClient) (serverAddress : Address)
    (packetSize rate duration : Z) : CustomTcpClient :=
  {| m_socket := m_socket c;
     m_serverAddress := serverAddress;
     m_packetSize := packetSize;
     m_numPackets := to_uint32 (rate * duration);
     m_interval := Seconds (one_over rate);
     m_packetsSent := m_packetsSent c;
     m_connected := m_connected c |}.

Definition StartApplication (c : CustomTcpClient)
    : CustomTcpClient * list Action :=
  let s := TcpSocket in
  ({| m_socket := Some s;
      m_serverAddress := m_serverAddress c;
      m_packetSize := m_packetSize c;
      m_numPackets := m_numPackets c;
      m_interval := m_interval c;
      m_packetsSent := m_packetsSent c;
      m_connected := m_connected c |},
   [SocketConnect s (m_serverAddress c); SocketSetConnectCallback s]).

Definition StopApplication (c : CustomTcpClient)
    : CustomTcpClient * list Action :=
  match m_socket c with
  | Some s =>
      ({| m_socket := None;
          m_serverAddress := m_serverAddress c;
          m_packetSize := m_packetSize c;
          m_numPackets := m_numPackets c;
          m_interval := m_interval c;
          m_packetsSent := m_packetsSent c;
          m_connected := m_connected c |},
       [SocketClose s])
  | None => (c, [])
  end.

(** The payload of a packet sent at [sendTime]. *)
Definition timestamp_packet (sendTime : Time) : Packet :=
  let timestampNs := to_uint64 (GetNanoSeconds sendTime) in
  CreatePacket (object_bytes host_order sizeof_uint64 timestampNs)
               sizeof_uint64.

Definition SendPacket (now : Time) (c : CustomTcpClient)
    : CustomTcpClient * list Action :=
  match m_socket c with
  | None => (c, [NsLog LOG_WARN SocketNullMsg])
  | Some s =>
      if m_packetsSent c <? m_numPackets c then
        let sendTime := now in
        let packet := timestamp_packet sendTime in
        ({| m_socket := m_socket c;
            m_serverAddress := m_serverAddress c;
            m_packetSize := m_packetSize c;
            m_numPackets := m_numPackets c;
            m_interval := m_interval c;
            m_packetsSent := to_uint32 (m_packetsSent c + 1);
            m_connected := m_connected c |},
         [NsLog LOG_INFO
            (SendingPacketMsg (to_uint32 (m_packetsSent c + 1)) sendTime);
          SocketSend s packet;
          SimulatorSchedule (m_interval c) SendPacketEv])
      else (c, [])
  end.

Definition ConnectionSucceeded (now : Time) (c : CustomTcpClient)
    : CustomTcpClient * list Action :=
  let c1 :=
    {| m_socket := m_socket c;
       m_serverAddress := m_serverAddress c;
       m_packetSize := m_packetSize c;
       m_numPackets := m_numPackets c;
       m_interval := m_interval c;
       m_packetsSent := m_packetsSent c;
       m_connected := true |} in
  let (c2, acts) := SendPacket now c1 in
  (c2, NsLog LOG_INFO ConnectionSucceededMsg :: acts).

Definition ConnectionFailed (c : CustomTcpClient)
    : CustomTcpClient * list Action :=
  (c, [NsLog LOG_INFO ConnectionFailedMsg]).

(** *** The latency recorder: the global [latencies] and what is logged *)

Record Recorder := {
  latencies : list double;
  recorder_log : list (LogLevel * LogMsg)
}.

Definition no_samples : Recorder :=
  {| latencies := []; recorder_log := [] |}.

Definition packet_timestamp (packet : Packet) : Z :=
  object_value host_order (CopyData packet sizeof_uint64).

Definition PacketReceived (now : Time) (packet : Packet) (from : Address)
    (r : Recorder) : Recorder :=
  if Z.of_nat sizeof_uint64 <=? GetSize packet then
    let timestampNs := packet_timestamp packet in
    let sendTime := NanoSeconds timestampNs in
    let receiveTime := now in
    let latency := GetSeconds (receiveTime - sendTime) in
    {| latencies := latencies r ++ [latency];
       recorder_log := recorder_log r ++
         [(LOG_INFO, PacketReceivedMsg (GetIpv4 from) (GetSize packet)
                       sendTime receiveTime latency)] |}
  else
    {| latencies := latencies r;
       recorder_log := recorder_log r ++ [(LOG_WARN, InsufficientSizeMsg)] |}.

(** A run of the sink's Rx trace: arrivals in arrival order. *)
Definition Arrival := (Time * Packet * Address)%type.

Definition receive_all (arrivals : list Arrival) (r : Recorder) : Recorder :=
  fold_left (fun acc a => PacketReceived (fst (fst a)) (snd (fst a)) (snd a) acc)
            arrivals r.

(** *** The scheduler, as far as the client uses it

    Events run in time order, events of one instant in the order they were
    inserted; [Simulator::Schedule] inserts at [Now + delay]. *)

Record Simulator := {
  Now : Time;
  events : list (Time * Event);
  clientApp : CustomTcpClient;
  history : list (Time * Action)
}.

Fixpoint insert_event (t : Time) (e : Event) (q : list (Time * Event))
    : list (Time * Event) :=
  match q with
  | [] => [(t, e)]
  | (t', e') :: rest =>
      if t <? t' then (t, e) :: q else (t', e') :: insert_event t e rest
  end.

Definition invoke (e : Event) (now : Time) (c : CustomTcpClient)
    : CustomTcpClient * list Action :=
  match e with
  | StartApplicationEv => StartApplication c
  | StopApplicationEv => StopApplication c
  | ConnectionSucceededEv => ConnectionSucceeded now c
  | ConnectionFailedEv => ConnectionFailed c
  | SendPacketEv => SendPacket now c
  end.

Definition perform (now : Time) (q : list (Time * Event)) (a : Action)
    : list (Time * Event) :=
  match a with
  | SimulatorSchedule delay e => insert_event (now + delay) e q
  | _ => q
  end.

Definition ProcessOneEvent (s : Simulator) : option Simulator :=
  match events s with
  | [] => None
  | (t, e) :: rest =>
      let (c, acts) := invoke e t (clientApp s) in
      Some {| Now := t;
              events := fold_left (perform t) acts rest;
              clientApp := c;
              history := history s ++ map (pair t) acts |}
  end.

(** [Simulator::Run]: process events until none is left. *)
Fixpoint Run (fuel : nat) (s : Simulator) : Simulator :=
  match fuel with
  | O => s
  | S n =>
      match ProcessOneEvent s with
      | None => s
      | Some s' => Run n s'
      end
  end.

(** One flow: the application starts at [tstart], its connection succeeds
    at [tconn]; nothing stops it. *)
Definition flow (c : CustomTcpClient) (tstart tconn : Time) : Simulator :=
  {| Now := 0;
     events := insert_event tconn ConnectionSucceededEv
                 (insert_event tstart StartApplicationEv []);
     clientApp := c;
     history := [] |}.

(** Projections of a history. *)
Definition sends (h : list (Time * Action)) : list (Time * Packet) :=
  flat_map (fun ta => match snd ta with
                      | SocketSend _ p => [(fst ta, p)]
                      | _ => []
                      end) h.

Definition scheduled (h : list (Time * Action)) : list (Time * Time * Event) :=
  flat_map (fun ta => match snd ta with
                      | SimulatorSchedule d e => [(fst ta, d, e)]
                      | _ => []
                      end) h.

Definition connects (h : list (Time * Action)) : list (Time * Address) :=
  flat_map (fun ta => match snd ta with
                      | SocketConnect _ a => [(fst ta, a)]
                      | _ => []
                      end) h.

Definition is_warning (lm : LogLevel * LogMsg) : bool :=
  match fst lm with LOG_WARN => true | LOG_INFO => false end.

End Program.

(** ** Vocabulary of the statements *)

(** The instants of [k] sends that start at [t], one every [interval]. *)
Definition send_times (t interval : Time) (k : nat) : list Time :=
  map (fun i => t + Z.of_nat i * interval) (seq 0 k).

(** The arrivals that carry a whole timestamp. *)
Definition has_timestamp (a : Arrival) : bool := 8 <=? GetSize (snd (fst a)).

Section Scenarios.
Context {host : Ns3Host}.

(** The sample that an arrival of at least 8 bytes adds to [latencies]. *)
Definition sample_of (a : Arrival) : double :=
  GetSeconds (fst (fst a) - NanoSeconds (packet_timestamp (snd (fst a)))).

(** Transit: every packet sent arrives [delay] later. *)
Definition deliver (delay : Time) (from : Address)
    (sent : list (Time * Packet)) : list Arrival :=
  map (fun tp => (fst tp + delay, snd tp, from)) sent.

(** A flow with a stop time: [Application] posts the start and the stop
    event when the simulation begins, before any callback of the client. *)
Definition stopped_flow (c : CustomTcpClient) (tstart tstop tconn : Time)
    : Simulator :=
  {| Now := 0;
     events := insert_event tconn ConnectionSucceededEv
                 (insert_event tstop StopApplicationEv
                    (insert_event tstart StartApplicationEv []));
     clientApp := c;
     history := [] |}.

(** A flow whose connection attempt fails at [tfail]. *)
Definition failed_flow (c : CustomTcpClient) (tstart tfail : Time)
    : Simulator :=
  {| Now := 0;
     events := insert_event tfail ConnectionFailedEv
                 (insert_event tstart StartApplicationEv []);
     clientApp := c;
     history := [] |}.

(** No pending event starts the application (again). *)
Definition is_start (e : Event) : bool :=
  match e with StartApplicationEv => true | _ => false end.

Definition never_started (q : list (Time * Event)) : bool :=
  forallb (fun te => negb (is_start (snd te))) q.

(** The counters of a client are those of a 32-bit count in progress. *)
Definition counters_ok (c : CustomTcpClient) : Prop :=
  0 <= m_packetsSent c <= m_numPackets c /\ m_numPackets c < 2 ^ 32.

(** A packet in a history carries the instant at which it was sent. *)
Definition stamped (tp : Time * Packet) : Prop :=
  snd tp = timestamp_packet (fst tp).

(** The [Schedule] call that goes with a send. *)
Definition reschedule_of (interval : Time) (tp : Time * Packet)
    : Time * Time * Event :=
  (fst tp, interval, SendPacketEv).

End Scenarios.

(** ** A reference host

    Seconds as exact rationals on a little-endian host; the closed examples
    below are evaluated on it. *)

Definition exact_GetSeconds (t : Time) : Q := Qred (Qmake t 1000000000).
Definition exact_Seconds (s : Q) : Time := Qfloor (s * inject_Z 1000000000)%Q.
Definition exact_one_over (rate : Z) : Q := Qred (Qinv (inject_Z rate)).

#[export] Instance ExactHost : Ns3Host.
Proof.
  refine {| host_order := LittleEndian;
            double := Q;
            dzero := 0%Q;
            dle := Qle;
            one_over := exact_one_over;
            Seconds := exact_Seconds;
            GetSeconds := exact_GetSeconds |}.
  - reflexivity.
  - intros t Ht. unfold exact_GetSeconds.
    rewrite Qred_correct. unfold Qle. simpl. lia.
Defined.

(** ** The scenario of [main]

    The sink listens on 10.1.1.2:50000; the client is set up with packet
    size 100, rate 10 and duration 10 and starts at 2 s. *)

Definition main_serverAddress : Address :=
  InetSocketAddress 167837954 50000.

Definition main_client : CustomTcpClient :=
  Setup (CreateObject 0 0) main_serverAddress 100 10 10.

Definition main_start : Time := 2000000000.

(** The handshake over the 30 us link is done some round trips later. *)
Definition main_connected : Time := 2000100000.

Definition main_flow : Simulator := flow main_client main_start main_connected.

(** The client of [main] once started. *)
Definition main_started : CustomTcpClient := fst (StartApplication main_client).

(** A client that owes a single packet: rate 1, duration 1. *)
Definition one_packet_client : CustomTcpClient :=
  fst (StartApplication
         (Setup (CreateObject 0 0) main_serverAddress 100 1 1)).

(** Payloads for the recorder: a stamp of 5 ns followed by two bytes of
    filler, a bare stamp of 5 ns, and three stray bytes. *)
Definition padded_packet : Packet :=
  [Byte.x05; Byte.x00; Byte.x00; Byte.x00; Byte.x00; Byte.x00; Byte.x00;
   Byte.x00; Byte.xff; Byte.xff].

Definition stamp5_packet : Packet :=
  [Byte.x05; Byte.x00; Byte.x00; Byte.x00; Byte.x00; Byte.x00; Byte.x00;
   Byte.x00].

Definition short_packet : Packet := [Byte.x01; Byte.x02; Byte.x03].

(** The run of [main] cut short: the application is stopped at 2.35 s,
    between the fourth and the fifth packet. *)
Definition early_stop : Time := 2350000000.

Definition main_stopped_flow : Simulator :=
  stopped_flow main_client main_start early_stop main_connected.

(** A stopped client with callbacks still in the queue. *)
Definition leftover_callbacks : Simulator :=
  {| Now := early_stop;
     events := [(2400000000, SendPacketEv); (2500000000, ConnectionFailedEv)];
     clientApp := fst (StopApplication main_started);
     history := [] |}.

(** The link of [main] has a delay of 30 us. *)
Definition link_delay : Time := 30000.

(** ** The timestamp header *)

Lemma Z_of_byte_of_Z (z : Z) : Z_of_byte (byte_of_Z z) = z mod 256.
Proof.
  unfold Z_of_byte, byte_of_Z.
  assert (Hb : 0 <= z mod 256 < 256) by (apply Z.mod_pos_bound; lia).
  pose proof (Byte.to_of_N_option_map (Z.to_N (z mod 256))) as Hm.
  destruct (Byte.of_N (Z.to_N (z mod 256))) as [b|] eqn:E.
  - apply Byte.to_of_N in E. rewrite E. apply Z2N.id. lia.
  - simpl in Hm.
    destruct (N.leb_spec (Z.to_N (z mod 256)) 255) as [_|Hgt];
      [discriminate | lia].
Qed.

Lemma Z_of_byte_range (b : Byte.byte) : 0 <= Z_of_byte b < 256.
Proof.
  unfold Z_of_byte. pose proof (Byte.to_N_bounded b). lia.
Qed.

Lemma le_bytes_length (n : nat) (v : Z) : length (le_bytes n v) = n.
Proof.
  revert v. induction n as [|n IH]; intros v; simpl; [reflexivity|].
  now rewrite IH.
Qed.

Lemma le_value_le_bytes (n : nat) (v : Z) :
  le_value (le_bytes n v) = v mod 256 ^ Z.of_nat n.
Proof.
  revert v. induction n as [|n IH]; intros v.
  - simpl. now rewrite Z.mod_1_r.
  - cbn [le_bytes le_value]. rewrite Z_of_byte_of_Z, IH.
    rewrite Nat2Z.inj_succ, Z.pow_succ_r by lia.
    symmetry. apply Z.rem_mul_r; [lia|].
    apply Z.pow_pos_nonneg; lia.
Qed.

Lemma le_value_range (bs : list Byte.byte) :
  0 <= le_value bs < 256 ^ Z.of_nat (length bs).
Proof.
  induction bs as [|b bs IH].
  - simpl. lia.
  - cbn [le_value length]. rewrite Nat2Z.inj_succ, Z.pow_succ_r by lia.
    pose proof (Z_of_byte_range b). lia.
Qed.

Lemma object_bytes_length (o : ByteOrder) (n : nat) (v : Z) :
  length (object_bytes o n v) = n.
Proof.
  destruct o; simpl; [|rewrite length_rev]; apply le_bytes_length.
Qed.

Lemma object_value_object_bytes (o : ByteOrder) (n : nat) (v : Z) :
  object_value o (object_bytes o n v) = v mod 256 ^ Z.of_nat n.
Proof.
  destruct o; simpl; [|rewrite rev_involutive]; apply le_value_le_bytes.
Qed.

Lemma object_value_range (o : ByteOrder) (bs : list Byte.byte) :
  0 <= object_value o bs < 256 ^ Z.of_nat (length bs).
Proof.
  destruct o; simpl; [apply le_value_range|].
  rewrite <- (length_rev bs). apply le_value_range.
Qed.

Lemma to_uint64_range (x : Z) : 0 <= to_uint64 x < 2 ^ 64.
Proof. unfold to_uint64. apply Z.mod_pos_bound. lia. Qed.

Lemma to_uint64_small (x : Z) : 0 <= x < 2 ^ 64 -> to_uint64 x = x.
Proof. intros H. unfold to_uint64. now apply Z.mod_small. Qed.

Lemma to_uint32_range (x : Z) : 0 <= to_uint32 x < 2 ^ 32.
Proof. unfold to_uint32. apply Z.mod_pos_bound. lia. Qed.

Lemma to_uint32_small (x : Z) : 0 <= x < 2 ^ 32 -> to_uint32 x = x.
Proof. intros H. unfold to_uint32. now apply Z.mod_small. Qed.

Section Header.
Context {host : Ns3Host}.

Lemma timestamp_packet_bytes (t : Time) :
  timestamp_packet t =
  object_bytes host_order sizeof_uint64 (to_uint64 (GetNanoSeconds t)).
Proof.
  unfold timestamp_packet, CreatePacket.
  apply firstn_all2. now rewrite object_bytes_length.
Qed.

Lemma timestamp_packet_size (t : Time) :
  GetSize (timestamp_packet t) = 8.
Proof.
  unfold GetSize. now rewrite timestamp_packet_bytes, object_bytes_length.
Qed.

Lemma packet_timestamp_of_timestamp_packet (t : Time) :
  packet_timestamp (timestamp_packet t) = to_uint64 (GetNanoSeconds t).
Proof.
  unfold packet_timestamp, CopyData.
  rewrite firstn_all2
    by (rewrite timestamp_packet_bytes, object_bytes_length; reflexivity).
  rewrite timestamp_packet_bytes, object_value_object_bytes.
  change (256 ^ Z.of_nat sizeof_uint64) with (2 ^ 64).
  apply Z.mod_small. apply to_uint64_range.
Qed.

End Header.

(** ** The packet generator *)

Section Generator.
Context {host : Ns3Host}.

Lemma SendPacket_null (t : Time) (c : CustomTcpClient) :
  m_socket c = None ->
  SendPacket t c = (c, [NsLog LOG_WARN SocketNullMsg]).
Proof. intros H. unfold SendPacket. now rewrite H. Qed.

Lemma SendPacket_exhausted (t : Time) (c : CustomTcpClient) (s : Socket) :
  m_socket c = Some s ->
  m_numPackets c <= m_packetsSent c ->
  SendPacket t c = (c, []).
Proof.
  intros Hs Hn. unfold SendPacket. rewrite Hs.
  destruct (Z.ltb_spec (m_packetsSent c) (m_numPackets c)); [lia|reflexivity].
Qed.

Lemma SendPacket_sends (t : Time) (c : CustomTcpClient) (s : Socket) :
  m_socket c = Some s ->
  m_packetsSent c < m_numPackets c ->
  SendPacket t c =
  ({| m_socket := m_socket c;
      m_serverAddress := m_serverAddress c;
      m_packetSize := m_packetSize c;
      m_numPackets := m_numPackets c;
      m_interval := m_interval c;
      m_packetsSent := to_uint32 (m_packetsSent c + 1);
      m_connected := m_connected c |},
   [NsLog LOG_INFO (SendingPacketMsg (to_uint32 (m_packetsSent c + 1)) t);
    SocketSend s (timestamp_packet t);
    SimulatorSchedule (m_interval c) SendPacketEv]).
Proof.
  intros Hs Hn. unfold SendPacket. rewrite Hs.
  destruct (Z.ltb_spec (m_packetsSent c) (m_numPackets c)); [reflexivity|lia].
Qed.

Lemma Run_no_events (fuel : nat) (s : Simulator) :
  events s = [] -> Run fuel s = s.
Proof.
  intros H. destruct fuel; simpl; [reflexivity|].
  unfold ProcessOneEvent. now rewrite H.
Qed.

Lemma sends_app (h1 h2 : list (Time * Action)) :
  sends (h1 ++ h2) = sends h1 ++ sends h2.
Proof. apply flat_map_app. Qed.

Lemma scheduled_app (h1 h2 : list (Time * Action)) :
  scheduled (h1 ++ h2) = scheduled h1 ++ scheduled h2.
Proof. apply flat_map_app. Qed.

Lemma send_times_succ (t interval : Time) (k : nat) :
  send_times t interval (S k) = t :: send_times (t + interval) interval k.
Proof.
  unfold send_times. cbn [seq map]. f_equal; [lia|].
  rewrite <- seq_shift, map_map. apply map_ext. intros i. lia.
Qed.

Lemma send_times_length (t interval : Time) (k : nat) :
  length (send_times t interval k) = k.
Proof. unfold send_times. now rewrite length_map, length_seq. Qed.

(** A client with an open socket whose next [SendPacket] runs at [t], called
    either by the scheduler or by [ConnectionSucceeded], sends the [k]
    packets it still owes at [t], [t + interval], ... and then stops. *)
Lemma Run_sending (k : nat) :
  forall (fuel : nat) (c : CustomTcpClient) (s : Socket) (e : Event)
         (t n0 : Time) (h : list (Time * Action)),
    e = SendPacketEv \/ e = ConnectionSucceededEv ->
    m_socket c = Some s ->
    0 <= m_packetsSent c ->
    m_packetsSent c + Z.of_nat k = m_numPackets c ->
    m_numPackets c < 2 ^ 32 ->
    (S k <= fuel)%nat ->
    let r := Run fuel {| Now := n0; events := [(t, e)]; clientApp := c;
                         history := h |} in
    events r = [] /\
    sends (history r) =
      sends h ++ map (fun u => (u, timestamp_packet u))
                     (send_times t (m_interval c) k) /\
    m_packetsSent (clientApp r) = m_numPackets c /\
    m_socket (clientApp r) = Some s.
Proof.
  induction k as [|k IH]; intros fuel c s e t n0 h He Hs H0 Hk Hn Hf r.
  - destruct fuel as [|fuel]; [lia|]. subst r.
    cbn [Run ProcessOneEvent events clientApp history].
    assert (Hc : exists c' l,
               invoke e t c = (c', l) /\ sends (map (pair t) l) = [] /\
               fold_left (perform t) l [] = [] /\
               m_packetsSent c' = m_numPackets c /\ m_socket c' = Some s).
    { destruct He as [-> | ->]; cbn [invoke].
      - rewrite (SendPacket_exhausted t c s) by (assumption || lia).
        exists c, []. repeat split; try assumption. lia.
      - unfold ConnectionSucceeded.
        rewrite (SendPacket_exhausted t _ s) by (cbn; assumption || lia).
        eexists _, _. repeat split; cbn; try assumption. lia. }
    destruct Hc as (c' & l & -> & Hl & Hq & Hp & Hs').
    cbv beta iota. rewrite Hq, Run_no_events by reflexivity.
    cbn [events history clientApp]. rewrite sends_app, Hl.
    cbn [send_times seq map].
    auto.
  - destruct fuel as [|fuel]; [lia|]. subst r.
    cbn [Run ProcessOneEvent events clientApp history].
    assert (Hlt : m_packetsSent c < m_numPackets c) by lia.
    assert (Hc : exists c' l,
               invoke e t c = (c', l) /\
               sends (map (pair t) l) = [(t, timestamp_packet t)] /\
               fold_left (perform t) l [] =
                 [(t + m_interval c, SendPacketEv)] /\
               m_packetsSent c' = m_packetsSent c + 1 /\
               m_numPackets c' = m_numPackets c /\
               m_interval c' = m_interval c /\
               m_socket c' = Some s).
    { destruct He as [-> | ->]; cbn [invoke].
      - rewrite (SendPacket_sends t c s) by assumption.
        eexists _, _. repeat split; cbn; try assumption.
        apply to_uint32_small. lia.
      - unfold ConnectionSucceeded.
        rewrite (SendPacket_sends t _ s) by (cbn; assumption).
        eexists _, _. repeat split; cbn; try assumption.
        apply to_uint32_small. lia. }
    destruct Hc as (c' & l & -> & Hl & Hq & Hp & Hn' & Hi & Hs').
    cbv beta iota. rewrite Hq.
    destruct (IH fuel c' s SendPacketEv (t + m_interval c) t
                 (h ++ map (pair t) l)) as (E1 & E2 & E3 & E4);
      try assumption; try lia; [now left|].
    split; [exact E1|].
    split; [|split; [exact (eq_trans E3 Hn') | exact E4]].
    etransitivity; [exact E2|].
    rewrite sends_app, Hl, Hi, send_times_succ, <- app_assoc.
    reflexivity.
Qed.

Lemma flow_events (c : CustomTcpClient) (tstart tconn : Time) :
  tstart <= tconn ->
  events (flow c tstart tconn) =
  [(tstart, StartApplicationEv); (tconn, ConnectionSucceededEv)].
Proof.
  intros H. unfold flow. cbn [events insert_event].
  destruct (Z.ltb_spec tconn tstart); [lia|reflexivity].
Qed.

(** A started flow whose connection succeeds at [tconn] sends all its
    packets, the first one at [tconn], and then has nothing scheduled. *)
Lemma Run_flow (c : CustomTcpClient) (tstart tconn : Time) (fuel : nat) :
  tstart <= tconn ->
  m_packetsSent c = 0 ->
  0 <= m_numPackets c < 2 ^ 32 ->
  (Z.to_nat (m_numPackets c) + 2 <= fuel)%nat ->
  let r := Run fuel (flow c tstart tconn) in
  events r = [] /\
  sends (history r) =
    map (fun u => (u, timestamp_packet u))
        (send_times tconn (m_interval c) (Z.to_nat (m_numPackets c))) /\
  m_packetsSent (clientApp r) = m_numPackets c.
Proof.
  intros Ht H0 Hn Hf r. subst r.
  destruct fuel as [|fuel]; [lia|].
  cbn [Run]. unfold ProcessOneEvent. rewrite flow_events by assumption.
  cbn [invoke StartApplication clientApp flow history fold_left perform map
       List.app].
  set (c1 := {| m_socket := Some TcpSocket;
                m_serverAddress := m_serverAddress c;
                m_packetSize := m_packetSize c;
                m_numPackets := m_numPackets c;
                m_interval := m_interval c;
                m_packetsSent := m_packetsSent c;
                m_connected := m_connected c |}).
  assert (Hs : m_socket c1 = Some TcpSocket) by reflexivity.
  assert (Hp : 0 <= m_packetsSent c1) by (cbn; lia).
  assert (Hk : m_packetsSent c1 + Z.of_nat (Z.to_nat (m_numPackets c)) =
               m_numPackets c1) by (cbn; lia).
  assert (Hb : m_numPackets c1 < 2 ^ 32) by (cbn; lia).
  assert (Hf' : (S (Z.to_nat (m_numPackets c)) <= fuel)%nat) by lia.
  destruct (Run_sending _ fuel c1 TcpSocket ConnectionSucceededEv tconn tstart
              ([] ++ [(tstart, SocketConnect TcpSocket (m_serverAddress c));
                      (tstart, SocketSetConnectCallback TcpSocket)])
              (or_intror eq_refl) Hs Hp Hk Hb Hf')
    as (E1 & E2 & E3 & _).
  split; [exact E1|]. split; [exact E2|exact E3].
Qed.

(** ** Properties of the generator *)

(** C2 (as amended): for rate > 0 and duration > 0, [Setup] sets the packet
    count to rate * duration reduced modulo 2^32, which is rate * duration
    itself when the product is below 2^32; a flow that connects and is not
    stopped performs exactly that many sends and then has nothing left
    scheduled. *)
Theorem Setup_numPackets_and_sends
    (p0 n0 : Z) (addr : Address) (size rate duration : Z)
    (tstart tconn : Time) (fuel : nat) :
  0 < rate -> 0 < duration -> tstart <= tconn ->
  let c := Setup (CreateObject p0 n0) addr size rate duration in
  (Z.to_nat (m_numPackets c) + 2 <= fuel)%nat ->
  let r := Run fuel (flow c tstart tconn) in
  m_numPackets c = (rate * duration) mod 2 ^ 32 /\
  (rate * duration < 2 ^ 32 -> m_numPackets c = rate * duration) /\
  events r = [] /\
  Z.of_nat (length (sends (history r))) = m_numPackets c /\
  m_packetsSent (clientApp r) = m_numPackets c.
Proof.
  intros Hr Hd Ht c Hf r.
  assert (Hn : 0 <= m_numPackets c < 2 ^ 32) by apply to_uint32_range.
  destruct (Run_flow c tstart tconn fuel Ht eq_refl Hn Hf) as (E1 & E2 & E3).
  split; [reflexivity|].
  split; [intros Hlt; apply to_uint32_small; lia|].
  split; [exact E1|]. split; [|exact E3].
  fold r in E2. rewrite E2, length_map, send_times_length. lia.
Qed.

(** C3 (as amended): a [SendPacket] that transmits a packet increments
    [m_packetsSent] and always schedules exactly one further [SendPacket]
    after [m_interval], also after the last packet; a [SendPacket] that finds
    [m_packetsSent] no smaller than [m_numPackets] sends nothing, schedules
    nothing and leaves the client as it is. *)
Theorem SendPacket_always_reschedules
    (t : Time) (c : CustomTcpClient) (s : Socket) :
  m_socket c = Some s ->
  (m_packetsSent c < m_numPackets c ->
     let r := SendPacket t c in
     m_packetsSent (fst r) = to_uint32 (m_packetsSent c + 1) /\
     sends (map (pair t) (snd r)) = [(t, timestamp_packet t)] /\
     scheduled (map (pair t) (snd r)) = [(t, m_interval c, SendPacketEv)]) /\
  (m_numPackets c <= m_packetsSent c -> SendPacket t c = (c, [])).
Proof.
  intros Hs. split.
  - intros Hlt. rewrite (SendPacket_sends t c s Hs Hlt).
    repeat split.
  - intros Hge. exact (SendPacket_exhausted t c s Hs Hge).
Qed.

(** C4 (as amended): [Setup] with rate 0 rejects nothing; it sets the packet
    count to 0.  The flow still starts, its application opens the connection
    at its start time, but it sends no packet and schedules no [SendPacket],
    however long the simulation runs. *)
Theorem Setup_rate_zero
    (p0 n0 : Z) (addr : Address) (size duration : Z)
    (tstart tconn : Time) (fuel : nat) :
  let c := Setup (CreateObject p0 n0) addr size 0 duration in
  let r := Run fuel (flow c tstart tconn) in
  m_numPackets c = 0 /\
  sends (history r) = [] /\
  scheduled (history r) = [] /\
  ((2 <= fuel)%nat ->
   events r = [] /\ connects (history r) = [(tstart, addr)]).
Proof.
  intros c r. subst r.
  split; [reflexivity|].
  unfold flow. cbn [insert_event].
  destruct (Z.ltb_spec tconn tstart) as [Hlt|Hge];
    destruct fuel as [|[|[|fuel]]]; cbn.
  all: repeat split; try reflexivity; try (intros; lia).
Qed.

(** Whatever [m_packetSize] is, a packet handed to the socket by
    [SendPacket] is the 8-byte timestamp and nothing else. *)
Lemma SendPacket_payload (t : Time) (c : CustomTcpClient) (s : Socket)
    (p : Packet) :
  In (SocketSend s p) (snd (SendPacket t c)) ->
  p = timestamp_packet t /\ GetSize p = 8 /\
  packet_timestamp p = to_uint64 (GetNanoSeconds t).
Proof.
  unfold SendPacket.
  destruct (m_socket c) as [s'|].
  - destruct (m_packetsSent c <? m_numPackets c); cbn [snd In].
    + intros [H|[H|[H|[]]]]; try discriminate.
      inversion H; subst.
      split; [reflexivity|].
      split; [apply timestamp_packet_size|].
      apply packet_timestamp_of_timestamp_packet.
    + intros [].
  - cbn [snd In]. intros [H|[]]. discriminate.
Qed.

(** C8: a flow set up by [Setup] whose connection succeeds at [tconn] sends
    its packets at [tconn], [tconn + interval], ...,
    [tconn + (numPackets - 1) * interval]: the offsets are counted from the
    instant of connection success, and the first packet leaves at that very
    instant. *)
Theorem sends_at_interval_offsets
    (p0 n0 : Z) (addr : Address) (size rate duration : Z)
    (tstart tconn : Time) (fuel : nat) :
  tstart <= tconn ->
  let c := Setup (CreateObject p0 n0) addr size rate duration in
  (Z.to_nat (m_numPackets c) + 2 <= fuel)%nat ->
  let r := Run fuel (flow c tstart tconn) in
  events r = [] /\
  map fst (sends (history r)) =
    map (fun i => tconn + Z.of_nat i * m_interval c)
        (seq 0 (Z.to_nat (m_numPackets c))) /\
  (0 < m_numPackets c -> hd_error (map fst (sends (history r))) = Some tconn).
Proof.
  intros Ht c Hf r.
  assert (Hn : 0 <= m_numPackets c < 2 ^ 32) by apply to_uint32_range.
  destruct (Run_flow c tstart tconn fuel Ht eq_refl Hn Hf) as (E1 & E2 & _).
  fold r in E1, E2.
  assert (Hm : map fst (sends (history r)) =
               send_times tconn (m_interval c) (Z.to_nat (m_numPackets c))).
  { rewrite E2, map_map. cbn [fst]. apply map_id. }
  split; [exact E1|]. split; [exact Hm|].
  intros Hpos. rewrite Hm.
  destruct (Z.to_nat (m_numPackets c)) as [|k] eqn:Ek; [lia|].
  rewrite send_times_succ. reflexivity.
Qed.

(** C9 (as amended): once [StopApplication] has released the socket, a
    [SendPacket] that fires is a no-op apart from one warning-level log
    message: it uses no socket, sends nothing, schedules nothing and leaves
    the client unchanged. *)
Theorem SendPacket_after_stop (t : Time) (c : CustomTcpClient) :
  let c' := fst (StopApplication c) in
  m_socket c' = None /\
  SendPacket t c' = (c', [NsLog LOG_WARN SocketNullMsg]).
Proof.
  intros c'.
  assert (Hs : m_socket c' = None).
  { subst c'. unfold StopApplication.
    destruct (m_socket c) eqn:E; [reflexivity|exact E]. }
  split; [exact Hs|]. now apply SendPacket_null.
Qed.

End Generator.

(** ** The latency recorder *)

Section LatencyRecorder.
Context {host : Ns3Host}.

Lemma PacketReceived_large (now : Time) (packet : Packet) (from : Address)
    (r : Recorder) :
  8 <= GetSize packet ->
  PacketReceived now packet from r =
  let sendTime := NanoSeconds (packet_timestamp packet) in
  let latency := GetSeconds (now - sendTime) in
  {| latencies := latencies r ++ [latency];
     recorder_log := recorder_log r ++
       [(LOG_INFO, PacketReceivedMsg (GetIpv4 from) (GetSize packet)
                     sendTime now latency)] |}.
Proof.
  intros H. unfold PacketReceived.
  destruct (Z.leb_spec (Z.of_nat sizeof_uint64) (GetSize packet)) as [_|Hlt];
    [reflexivity|].
  change (Z.of_nat sizeof_uint64) with 8 in Hlt. lia.
Qed.

Lemma PacketReceived_small (now : Time) (packet : Packet) (from : Address)
    (r : Recorder) :
  GetSize packet < 8 ->
  PacketReceived now packet from r =
  {| latencies := latencies r;
     recorder_log := recorder_log r ++ [(LOG_WARN, InsufficientSizeMsg)] |}.
Proof.
  intros H. unfold PacketReceived.
  destruct (Z.leb_spec (Z.of_nat sizeof_uint64) (GetSize packet)) as [Hle|_];
    [|reflexivity].
  change (Z.of_nat sizeof_uint64) with 8 in Hle. lia.
Qed.

Lemma receive_all_length (arrivals : list Arrival) (r : Recorder) :
  length (latencies (receive_all arrivals r)) =
  (length (latencies r) + length (filter has_timestamp arrivals))%nat.
Proof.
  revert r. induction arrivals as [|[[now packet] from] rest IH]; intros r.
  - simpl. lia.
  - unfold receive_all in *. cbn [fold_left fst snd filter].
    rewrite IH. unfold has_timestamp at 2. cbn [fst snd].
    destruct (Z.leb_spec 8 (GetSize packet)) as [Hle|Hlt].
    + rewrite PacketReceived_large by assumption.
      cbn [latencies length]. rewrite length_app. simpl. lia.
    + rewrite PacketReceived_small by assumption.
      cbn [latencies]. lia.
Qed.

(** C1: for an arrived payload of at least 8 bytes the sample appended to
    [latencies] is the conversion to seconds of the receive time minus the
    send time read from the first 8 bytes, with nothing added or removed; it
    is not negative when that send time is at most the receive time. *)
Theorem PacketReceived_latency (now : Time) (packet : Packet) (from : Address)
    (r : Recorder) :
  8 <= GetSize packet ->
  let sendTime := NanoSeconds (object_value host_order (firstn 8 packet)) in
  latencies (PacketReceived now packet from r) =
    latencies r ++ [GetSeconds (now - sendTime)] /\
  (sendTime <= now -> 0 <= now - sendTime /\
                      dle dzero (GetSeconds (now - sendTime))).
Proof.
  intros Hsize sendTime.
  rewrite PacketReceived_large by assumption.
  split; [reflexivity|].
  intros Hle. split; [lia|]. apply GetSeconds_nonneg. lia.
Qed.

(** C6: after any sequence of arrivals, starting from the empty log,
    [latencies] holds as many samples as there were arrivals of at least 8
    bytes; an arrival of fewer than 8 bytes leaves [latencies] as it was and
    is reported by one warning. *)
Theorem latencies_count_timestamped_arrivals (arrivals : list Arrival) :
  length (latencies (receive_all arrivals no_samples)) =
    length (filter has_timestamp arrivals) /\
  (forall (now : Time) (packet : Packet) (from : Address) (r : Recorder),
     GetSize packet < 8 ->
     latencies (PacketReceived now packet from r) = latencies r /\
     recorder_log (PacketReceived now packet from r) =
       recorder_log r ++ [(LOG_WARN, InsufficientSizeMsg)]).
Proof.
  split.
  - rewrite receive_all_length. reflexivity.
  - intros now packet from r Hlt.
    rewrite PacketReceived_small by assumption. split; reflexivity.
Qed.

(** C7 (as amended): when the send time read from an arrived payload is later
    than the receive time, [PacketReceived] appends the (negative) latency to
    [latencies] like any other sample and logs the same information-level
    message as for any other packet; it reports no violation. *)
Theorem PacketReceived_accepts_negative_latency
    (now : Time) (packet : Packet) (from : Address) (r : Recorder) :
  8 <= GetSize packet ->
  now < packet_timestamp packet ->
  let sendTime := NanoSeconds (packet_timestamp packet) in
  let r' := PacketReceived now packet from r in
  now - sendTime < 0 /\
  latencies r' = latencies r ++ [GetSeconds (now - sendTime)] /\
  recorder_log r' = recorder_log r ++
    [(LOG_INFO, PacketReceivedMsg (GetIpv4 from) (GetSize packet) sendTime now
                  (GetSeconds (now - sendTime)))].
Proof.
  intros Hsize Hlate sendTime r'. subst r'.
  rewrite PacketReceived_large by assumption.
  split; [unfold sendTime, NanoSeconds; lia|].
  split; reflexivity.
Qed.

(** C10: for a send time [t] that fits an unsigned 64-bit nanosecond count,
    the packet that [SendPacket] hands to the socket at [t] decodes back to
    [t] on the receiving side, so an arrival at the same instant [t] is
    logged with a latency of exactly zero. *)
Theorem timestamp_round_trip
    (t : Time) (c : CustomTcpClient) (s : Socket) (from : Address)
    (r : Recorder) :
  0 <= t < 2 ^ 64 ->
  m_socket c = Some s ->
  m_packetsSent c < m_numPackets c ->
  exists p : Packet,
    sends (map (pair t) (snd (SendPacket t c))) = [(t, p)] /\
    NanoSeconds (object_value host_order (CopyData p sizeof_uint64)) = t /\
    latencies (PacketReceived t p from r) = latencies r ++ [dzero].
Proof.
  intros Ht Hs Hlt. exists (timestamp_packet t).
  rewrite (SendPacket_sends t c s Hs Hlt).
  split; [reflexivity|].
  assert (Hd : packet_timestamp (timestamp_packet t) = t).
  { rewrite packet_timestamp_of_timestamp_packet.
    now apply to_uint64_small. }
  split; [exact Hd|].
  rewrite PacketReceived_large by (rewrite timestamp_packet_size; lia).
  cbn [latencies]. rewrite Hd. unfold NanoSeconds.
  rewrite Z.sub_diag, GetSeconds_zero. reflexivity.
Qed.

End LatencyRecorder.

(** ** The program evaluated on the reference host *)

(** The run of [main]: a hundred packets, one every 100 ms. *)
Example main_flow_sends :
  map fst (sends (history (Run 200 main_flow))) =
  map (fun i => 2000100000 + Z.of_nat i * 100000000) (seq 0 100).
Proof. vm_compute. reflexivity. Qed.

(** C5: in the run of [main] the configured packet size is 100, and each of
    the 100 packets handed to the socket is 8 bytes long: the timestamp
    alone, with no padding up to the configured size. *)
Theorem main_packets_are_eight_bytes :
  let r := Run 102 main_flow in
  m_packetSize (clientApp r) = 100 /\
  events r = [] /\
  map (fun tp => GetSize (snd tp)) (sends (history r)) = repeat 8 100.
Proof. vm_compute. repeat split. Qed.

(** C2, as stated, fails when the product overflows the 32-bit counter:
    rate 65536 and duration 65536 give a packet count of 0. *)
Lemma Setup_numPackets_overflow :
  ~ (m_numPackets (Setup (CreateObject 0 0) main_serverAddress 100 65536 65536)
     = 65536 * 65536).
Proof. vm_compute. discriminate. Qed.

(** C3, as stated, fails on the last packet: the client that owes one packet
    sends it, has then sent all its packets, and has scheduled another
    [SendPacket] all the same. *)
Lemma SendPacket_schedules_after_last :
  let r := SendPacket 0 one_packet_client in
  ~ (m_packetsSent (fst r) = m_numPackets (fst r) ->
     scheduled (map (pair 0) (snd r)) = []).
Proof. vm_compute. intros H. specialize (H eq_refl). discriminate. Qed.

(** C4, as stated, fails: with rate 0 nothing is rejected and the flow
    starts, the application connects to the server. *)
Lemma Setup_rate_zero_flow_starts :
  ~ (connects
       (history
          (Run 2 (flow (Setup (CreateObject 0 0) main_serverAddress 100 0 10)
                       main_start main_connected))) = []).
Proof. vm_compute. discriminate. Qed.

(** C7, as stated, fails: a payload stamped 5 ns that arrives at instant 0 is
    neither kept out of [latencies] nor reported by a warning. *)
Lemma negative_latency_is_not_reported :
  let r := PacketReceived 0 stamp5_packet main_serverAddress no_samples in
  0 < packet_timestamp stamp5_packet /\
  ~ (latencies r = latencies no_samples \/
     existsb is_warning (recorder_log r) = true).
Proof.
  vm_compute. split; [reflexivity|]. intros [H|H]; discriminate.
Qed.

(** C9, as stated, fails in one respect: the [SendPacket] that fires after
    [StopApplication] is not silent, it logs a warning. *)
Lemma SendPacket_after_stop_is_logged :
  ~ (snd (SendPacket 3000000000 (fst (StopApplication main_started))) = []).
Proof. vm_compute. discriminate. Qed.

(** ** The theorems at concrete inputs *)

Lemma PacketReceived_latency_at_35 :
  8 <= GetSize padded_packet /\
  (let sendTime :=
     NanoSeconds (object_value host_order (firstn 8 padded_packet)) in
   latencies (PacketReceived 35 padded_packet main_serverAddress no_samples) =
     latencies no_samples ++ [GetSeconds (35 - sendTime)] /\
   (sendTime <= 35 -> 0 <= 35 - sendTime /\
                      dle dzero (GetSeconds (35 - sendTime)))).
Proof.
  assert (H : 8 <= GetSize padded_packet) by (vm_compute; discriminate).
  split; [exact H|].
  exact (PacketReceived_latency 35 padded_packet main_serverAddress
           no_samples H).
Defined.

Lemma Setup_numPackets_and_sends_main :
  (0 < 10 /\ 0 < 10 /\ main_start <= main_connected /\
   (Z.to_nat (m_numPackets main_client) + 2 <= 102)%nat) /\
  (let c := main_client in
   let r := Run 102 (flow c main_start main_connected) in
   m_numPackets c = (10 * 10) mod 2 ^ 32 /\
   (10 * 10 < 2 ^ 32 -> m_numPackets c = 10 * 10) /\
   events r = [] /\
   Z.of_nat (length (sends (history r))) = m_numPackets c /\
   m_packetsSent (clientApp r) = m_numPackets c).
Proof.
  assert (Hr : 0 < 10) by lia.
  assert (Ht : main_start <= main_connected) by (vm_compute; discriminate).
  assert (Hf : (Z.to_nat (m_numPackets main_client) + 2 <= 102)%nat)
    by (vm_compute; lia).
  split; [repeat split; assumption|].
  exact (Setup_numPackets_and_sends 0 0 main_serverAddress 100 10 10
           main_start main_connected 102 Hr Hr Ht Hf).
Defined.

Lemma SendPacket_always_reschedules_one_packet :
  m_socket one_packet_client = Some TcpSocket /\
  m_packetsSent one_packet_client < m_numPackets one_packet_client /\
  (let r := SendPacket 7 one_packet_client in
   m_packetsSent (fst r) = to_uint32 (m_packetsSent one_packet_client + 1) /\
   sends (map (pair 7) (snd r)) = [(7, timestamp_packet 7)] /\
   scheduled (map (pair 7) (snd r)) =
     [(7, m_interval one_packet_client, SendPacketEv)]).
Proof.
  assert (Hs : m_socket one_packet_client = Some TcpSocket) by reflexivity.
  assert (Hlt : m_packetsSent one_packet_client
                < m_numPackets one_packet_client) by reflexivity.
  split; [exact Hs|]. split; [exact Hlt|].
  exact (proj1 (SendPacket_always_reschedules 7 one_packet_client TcpSocket Hs)
           Hlt).
Defined.

Lemma Setup_rate_zero_main :
  (2 <= 5)%nat /\
  (let c := Setup (CreateObject 0 0) main_serverAddress 100 0 10 in
   let r := Run 5 (flow c main_start main_connected) in
   m_numPackets c = 0 /\
   sends (history r) = [] /\
   scheduled (history r) = [] /\
   events r = [] /\
   connects (history r) = [(main_start, main_serverAddress)]).
Proof.
  assert (H : (2 <= 5)%nat) by lia.
  split; [exact H|].
  pose proof (Setup_rate_zero 0 0 main_serverAddress 100 10
                main_start main_connected 5) as (E1 & E2 & E3 & E4).
  destruct (E4 H) as (E5 & E6).
  repeat split; assumption.
Defined.

Lemma latencies_count_short_packet :
  GetSize short_packet < 8 /\
  length (latencies
            (receive_all [(10, padded_packet, main_serverAddress);
                          (11, short_packet, main_serverAddress);
                          (12, stamp5_packet, main_serverAddress)]
                         no_samples)) = 2%nat /\
  latencies (PacketReceived 11 short_packet main_serverAddress no_samples) =
    latencies no_samples /\
  recorder_log (PacketReceived 11 short_packet main_serverAddress no_samples) =
    recorder_log no_samples ++ [(LOG_WARN, InsufficientSizeMsg)].
Proof.
  assert (H : GetSize short_packet < 8) by reflexivity.
  split; [exact H|].
  destruct (latencies_count_timestamped_arrivals
              [(10, padded_packet, main_serverAddress);
               (11, short_packet, main_serverAddress);
               (12, stamp5_packet, main_serverAddress)]) as (E1 & E2).
  split; [exact E1|].
  exact (E2 11 short_packet main_serverAddress no_samples H).
Defined.

Lemma PacketReceived_accepts_negative_latency_at_0 :
  8 <= GetSize stamp5_packet /\
  0 < packet_timestamp stamp5_packet /\
  (let sendTime := NanoSeconds (packet_timestamp stamp5_packet) in
   let r' := PacketReceived 0 stamp5_packet main_serverAddress no_samples in
   0 - sendTime < 0 /\
   latencies r' = latencies no_samples ++ [GetSeconds (0 - sendTime)] /\
   recorder_log r' = recorder_log no_samples ++
     [(LOG_INFO, PacketReceivedMsg (GetIpv4 main_serverAddress)
                   (GetSize stamp5_packet) sendTime 0
                   (GetSeconds (0 - sendTime)))]).
Proof.
  assert (Hs : 8 <= GetSize stamp5_packet) by (vm_compute; discriminate).
  assert (Hl : 0 < packet_timestamp stamp5_packet) by reflexivity.
  split; [exact Hs|]. split; [exact Hl|].
  exact (PacketReceived_accepts_negative_latency 0 stamp5_packet
           main_serverAddress no_samples Hs Hl).
Defined.

Lemma sends_at_interval_offsets_main :
  (main_start <= main_connected /\
   (Z.to_nat (m_numPackets main_client) + 2 <= 102)%nat) /\
  (let c := main_client in
   let r := Run 102 (flow c main_start main_connected) in
   events r = [] /\
   map fst (sends (history r)) =
     map (fun i => main_connected + Z.of_nat i * m_interval c)
         (seq 0 (Z.to_nat (m_numPackets c))) /\
   (0 < m_numPackets c ->
    hd_error (map fst (sends (history r))) = Some main_connected)).
Proof.
  assert (Ht : main_start <= main_connected) by (vm_compute; discriminate).
  assert (Hf : (Z.to_nat (m_numPackets main_client) + 2 <= 102)%nat)
    by (vm_compute; lia).
  split; [split; assumption|].
  exact (sends_at_interval_offsets 0 0 main_serverAddress 100 10 10
           main_start main_connected 102 Ht Hf).
Defined.

Lemma timestamp_round_trip_main :
  (0 <= main_connected < 2 ^ 64 /\
   m_socket main_started = Some TcpSocket /\
   m_packetsSent main_started < m_numPackets main_started) /\
  (exists p : Packet,
     sends (map (pair main_connected)
                (snd (SendPacket main_connected main_started))) =
       [(main_connected, p)] /\
     NanoSeconds (object_value host_order (CopyData p sizeof_uint64)) =
       main_connected /\
     latencies (PacketReceived main_connected p main_serverAddress no_samples)
       = latencies no_samples ++ [dzero]).
Proof.
  assert (Ht : 0 <= main_connected < 2 ^ 64) by (unfold main_connected; lia).
  assert (Hs : m_socket main_started = Some TcpSocket) by reflexivity.
  assert (Hlt : m_packetsSent main_started < m_numPackets main_started)
    by reflexivity.
  split; [exact (conj Ht (conj Hs Hlt))|].
  exact (timestamp_round_trip main_connected main_started TcpSocket
           main_serverAddress no_samples Ht Hs Hlt).
Defined.

(** ** Every run of the client

    What holds of the client whatever events reach it, in whatever order:
    starts, stops, connection callbacks and scheduled sends. *)

Section AnyRun.
Context {host : Ns3Host}.

Lemma scheduled_cons_log (t : Time) (l : LogLevel) (m : LogMsg)
    (h : list (Time * Action)) :
  scheduled ((t, NsLog l m) :: h) = scheduled h.
Proof. reflexivity. Qed.

Lemma sends_cons_log (t : Time) (l : LogLevel) (m : LogMsg)
    (h : list (Time * Action)) :
  sends ((t, NsLog l m) :: h) = sends h.
Proof. reflexivity. Qed.

(** What one call of [SendPacket] leaves behind. *)
Lemma SendPacket_effects (t : Time) (c : CustomTcpClient) :
  let c' := fst (SendPacket t c) in
  let acts := map (pair t) (snd (SendPacket t c)) in
  m_numPackets c' = m_numPackets c /\
  m_interval c' = m_interval c /\
  m_socket c' = m_socket c /\
  m_connected c' = m_connected c /\
  scheduled acts = map (reschedule_of (m_interval c)) (sends acts) /\
  Forall stamped (sends acts) /\
  (counters_ok c ->
   counters_ok c' /\
   m_packetsSent c' = m_packetsSent c + Z.of_nat (length (sends acts))).
Proof.
  unfold SendPacket, counters_ok.
  destruct (m_socket c) as [s|] eqn:Hs;
    [destruct (Z.ltb_spec (m_packetsSent c) (m_numPackets c)) as [Hlt|Hge]|];
    cbn; rewrite ?Hs;
    (do 5 (split; [reflexivity|]));
    (split; [repeat constructor|]);
    intros [[H0 H1] H2]; rewrite ?to_uint32_small by lia; lia.
Qed.

(** What one event leaves behind. *)
Lemma invoke_effects (e : Event) (t : Time) (c : CustomTcpClient) :
  let c' := fst (invoke e t c) in
  let acts := map (pair t) (snd (invoke e t c)) in
  m_numPackets c' = m_numPackets c /\
  m_interval c' = m_interval c /\
  scheduled acts = map (reschedule_of (m_interval c)) (sends acts) /\
  Forall stamped (sends acts) /\
  (counters_ok c ->
   counters_ok c' /\
   m_packetsSent c' = m_packetsSent c + Z.of_nat (length (sends acts))).
Proof.
  destruct e; cbn [invoke].
  - unfold counters_ok. cbn.
    do 3 (split; [reflexivity|]). split; [constructor|]. lia.
  - unfold StopApplication, counters_ok. destruct (m_socket c); cbn;
      do 3 (split; [reflexivity|]); (split; [constructor|]); lia.
  - unfold ConnectionSucceeded.
    set (c1 := {| m_socket := m_socket c;
                  m_serverAddress := m_serverAddress c;
                  m_packetSize := m_packetSize c;
                  m_numPackets := m_numPackets c;
                  m_interval := m_interval c;
                  m_packetsSent := m_packetsSent c;
                  m_connected := true |}).
    pose proof (SendPacket_effects t c1) as H.
    destruct (SendPacket t c1) as [c2 acts].
    cbn [fst snd map] in *. rewrite scheduled_cons_log, sends_cons_log.
    destruct H as (H1 & H2 & _ & _ & H3 & H4 & H5).
    do 4 (split; [assumption|]). exact H5.
  - unfold counters_ok. cbn.
    do 3 (split; [reflexivity|]). split; [constructor|]. lia.
  - pose proof (SendPacket_effects t c) as H.
    destruct H as (H1 & H2 & _ & _ & H3 & H4 & H5).
    do 4 (split; [assumption|]). exact H5.
Qed.

Lemma scheduled_perform (t : Time) (acts : list Action)
    (q : list (Time * Event)) :
  scheduled (map (pair t) acts) = [] ->
  fold_left (perform t) acts q = q.
Proof.
  revert q. induction acts as [|a acts IH]; intros q H; [reflexivity|].
  destruct a; cbn in *; try (apply IH; assumption). discriminate.
Qed.

(** The history only grows, and what a run adds to it is accounted for. *)
Lemma Run_effects (fuel : nat) :
  forall s : Simulator,
    let r := Run fuel s in
    m_numPackets (clientApp r) = m_numPackets (clientApp s) /\
    m_interval (clientApp r) = m_interval (clientApp s) /\
    exists h',
      history r = history s ++ h' /\
      scheduled h' =
        map (reschedule_of (m_interval (clientApp s))) (sends h') /\
      Forall stamped (sends h') /\
      (counters_ok (clientApp s) ->
       counters_ok (clientApp r) /\
       m_packetsSent (clientApp r) =
         m_packetsSent (clientApp s) + Z.of_nat (length (sends h'))).
Proof.
  induction fuel as [|fuel IH]; intros s r; subst r.
  - cbn [Run]. split; [reflexivity|]. split; [reflexivity|].
    exists []. rewrite app_nil_r.
    split; [reflexivity|]. split; [reflexivity|]. split; [constructor|].
    intros Hc. split; [exact Hc|]. cbn. lia.
  - cbn [Run]. unfold ProcessOneEvent.
    destruct (events s) as [|[t e] rest] eqn:Hq.
    + split; [reflexivity|]. split; [reflexivity|].
      exists []. rewrite app_nil_r.
      split; [reflexivity|]. split; [reflexivity|]. split; [constructor|].
      intros Hc. split; [exact Hc|]. cbn. lia.
    + pose proof (invoke_effects e t (clientApp s)) as He.
      destruct (invoke e t (clientApp s)) as [c acts].
      cbn [fst snd] in He. destruct He as (N1 & I1 & S1 & F1 & C1).
      match goal with |- context [Run fuel ?s1] => set (s1' := s1) end.
      destruct (IH s1') as (N2 & I2 & h2 & H2 & S2 & F2 & C2).
      cbn [s1' clientApp history] in N2, I2, H2, S2, C2.
      split; [congruence|]. split; [congruence|].
      exists (map (pair t) acts ++ h2).
      split; [rewrite H2, app_assoc; reflexivity|].
      rewrite sends_app, scheduled_app, map_app, length_app.
      split; [rewrite S1, S2, I1; reflexivity|].
      split; [apply Forall_app; split; assumption|].
      intros Hc. destruct (C1 Hc) as (C1a & C1b).
      destruct (C2 C1a) as (C2a & C2b).
      split; [exact C2a|]. rewrite C2b, C1b. lia.
Qed.

End AnyRun.

Section AnyRunProperties.
Context {host : Ns3Host}.

(** X1: stopping is idempotent.  A second [StopApplication] finds the handle
    null, closes nothing and changes nothing, so the socket is closed at most
    once however often the application is stopped. *)
Theorem StopApplication_idempotent (c : CustomTcpClient) :
  let c' := fst (StopApplication c) in
  StopApplication c' = (c', []) /\
  (length (snd (StopApplication c) ++ snd (StopApplication c')) <= 1)%nat.
Proof.
  intros c'. subst c'. unfold StopApplication.
  destruct (m_socket c) as [s|] eqn:Hs; cbn; rewrite ?Hs; cbn; split;
    (reflexivity || lia).
Qed.

Lemma invoke_stopped (e : Event) (t : Time) (c : CustomTcpClient) :
  m_socket c = None ->
  is_start e = false ->
  m_socket (fst (invoke e t c)) = None /\
  m_packetsSent (fst (invoke e t c)) = m_packetsSent c /\
  sends (map (pair t) (snd (invoke e t c))) = [] /\
  scheduled (map (pair t) (snd (invoke e t c))) = [].
Proof.
  intros Hs He. destruct e; try discriminate; cbn [invoke].
  - unfold StopApplication. rewrite Hs. repeat split; assumption.
  - unfold ConnectionSucceeded.
    rewrite SendPacket_null by exact Hs. repeat split; assumption.
  - repeat split; assumption.
  - rewrite SendPacket_null by exact Hs. repeat split; assumption.
Qed.

Lemma Run_stopped_quiet (fuel : nat) (s : Simulator) :
  m_socket (clientApp s) = None ->
  never_started (events s) = true ->
  let r := Run fuel s in
  sends (history r) = sends (history s) /\
  scheduled (history r) = scheduled (history s) /\
  m_packetsSent (clientApp r) = m_packetsSent (clientApp s) /\
  m_socket (clientApp r) = None /\
  ((length (events s) <= fuel)%nat -> events r = []).
Proof.
  revert s. induction fuel as [|fuel IH]; intros s Hs Hq r; subst r.
  - cbn [Run]. repeat split; try assumption.
    intros Hl. destruct (events s); [reflexivity|cbn in Hl; lia].
  - cbn [Run]. unfold ProcessOneEvent.
    destruct (events s) as [|[t e] rest] eqn:Eq.
    + repeat split; auto.
    + cbn [never_started forallb snd] in Hq.
      apply andb_true_iff in Hq. destruct Hq as [He Hrest].
      apply negb_true_iff in He.
      destruct (invoke_stopped e t (clientApp s) Hs He)
        as (I1 & I2 & I3 & I4).
      destruct (invoke e t (clientApp s)) as [c acts].
      cbn [fst snd] in I1, I2, I3, I4.
      rewrite (scheduled_perform t acts rest I4).
      match goal with |- context [Run fuel ?s1] => set (s1' := s1) end.
      destruct (IH s1' I1 Hrest) as (R1 & R2 & R3 & R4 & R5).
      cbn [s1' history clientApp events] in R1, R2, R3, R5.
      rewrite sends_app, I3, app_nil_r in R1.
      rewrite scheduled_app, I4, app_nil_r in R2.
      split; [exact R1|]. split; [exact R2|].
      split; [congruence|]. split; [exact R4|].
      intros Hl. apply R5. cbn in Hl. lia.
Qed.

(** X2: once the handle is released and no start is pending, nothing that
    is still in the event queue can make the client send or schedule: the
    callbacks left over run as no-ops and the queue drains. *)
Theorem Run_after_stop (fuel : nat) (s : Simulator) :
  m_socket (clientApp s) = None ->
  never_started (events s) = true ->
  let r := Run fuel s in
  sends (history r) = sends (history s) /\
  scheduled (history r) = scheduled (history s) /\
  m_packetsSent (clientApp r) = m_packetsSent (clientApp s) /\
  m_socket (clientApp r) = None /\
  ((length (events s) <= fuel)%nat -> events r = []).
Proof. exact (Run_stopped_quiet fuel s). Qed.

(** X4: a flow whose connection attempt fails connects once and then never
    sends and never schedules a send; its packet counter stays where it
    was. *)
Theorem failed_flow_sends_nothing
    (c : CustomTcpClient) (tstart tfail : Time) (fuel : nat) :
  let r := Run fuel (failed_flow c tstart tfail) in
  sends (history r) = [] /\
  scheduled (history r) = [] /\
  m_packetsSent (clientApp r) = m_packetsSent c /\
  ((2 <= fuel)%nat ->
   events r = [] /\ connects (history r) = [(tstart, m_serverAddress c)]).
Proof.
  intros r. subst r. unfold failed_flow. cbn [insert_event].
  destruct (Z.ltb_spec tfail tstart) as [Hlt|Hge];
    destruct fuel as [|[|[|fuel]]]; cbn.
  all: repeat split; try reflexivity; try (intros; lia).
Qed.

(** X5: in every run, whatever the events, [m_packetsSent] grows by exactly
    the number of packets handed to the socket and never passes
    [m_numPackets]: a client never sends more than the count it was set up
    with. *)
Theorem Run_counts_sends (fuel : nat) (s : Simulator) :
  counters_ok (clientApp s) ->
  let r := Run fuel s in
  m_packetsSent (clientApp r) - m_packetsSent (clientApp s) =
    Z.of_nat (length (sends (history r)))
    - Z.of_nat (length (sends (history s))) /\
  m_packetsSent (clientApp s) <= m_packetsSent (clientApp r)
                              <= m_numPackets (clientApp s).
Proof.
  intros Hc r.
  destruct (Run_effects fuel s) as (N & _ & h' & H & _ & _ & C).
  destruct (C Hc) as ([[C0 C1] C2] & C3).
  fold r in N, H, C0, C1, C3. rewrite H, sends_app, length_app, C3.
  split; lia.
Qed.

(** X6: in every run each packet handed to the socket is paired with
    exactly one [Simulator::Schedule] of [SendPacket], at the same instant
    and after [m_interval]; nothing else is ever scheduled. *)
Theorem Run_reschedules_once_per_send (fuel : nat) (s : Simulator) :
  scheduled (history s) =
    map (reschedule_of (m_interval (clientApp s))) (sends (history s)) ->
  scheduled (history (Run fuel s)) =
    map (reschedule_of (m_interval (clientApp s)))
        (sends (history (Run fuel s))).
Proof.
  intros H0.
  destruct (Run_effects fuel s) as (_ & _ & h' & H & S & _).
  rewrite H, scheduled_app, sends_app, map_app, H0, S. reflexivity.
Qed.

(** X7: in every run each packet handed to the socket is 8 bytes long and
    decodes to the instant at which it was sent, reduced modulo 2^64. *)
Theorem Run_packets_carry_send_time (fuel : nat) (s : Simulator) :
  Forall stamped (sends (history s)) ->
  Forall (fun tp => GetSize (snd tp) = 8 /\
                    packet_timestamp (snd tp) = to_uint64 (fst tp))
         (sends (history (Run fuel s))).
Proof.
  intros H0.
  destruct (Run_effects fuel s) as (_ & _ & h' & H & _ & F & _).
  rewrite H, sends_app.
  assert (Hall : Forall stamped (sends (history s) ++ sends h'))
    by (apply Forall_app; split; assumption).
  eapply Forall_impl; [|exact Hall].
  intros [t p] Hp. unfold stamped in Hp. cbn [fst snd] in *. subst p.
  split; [apply timestamp_packet_size|].
  apply packet_timestamp_of_timestamp_packet.
Qed.

End AnyRunProperties.

(** ** Stopping a flow before it is done *)

Section EarlyStop.
Context {host : Ns3Host}.

Lemma invoke_exhausted (e : Event) (t : Time) (c : CustomTcpClient)
    (s : Socket) :
  e = SendPacketEv \/ e = ConnectionSucceededEv ->
  m_socket c = Some s ->
  m_numPackets c <= m_packetsSent c ->
  exists c' l,
    invoke e t c = (c', l) /\
    sends (map (pair t) l) = [] /\
    (forall q, fold_left (perform t) l q = q) /\
    m_socket c' = Some s.
Proof.
  intros [-> | ->] Hs Hn; cbn [invoke].
  - rewrite (SendPacket_exhausted t c s) by assumption.
    exists c, []. repeat split; assumption.
  - unfold ConnectionSucceeded.
    rewrite (SendPacket_exhausted t _ s) by (cbn; assumption).
    eexists _, _. repeat split; cbn; assumption.
Qed.

Lemma invoke_sends (e : Event) (t : Time) (c : CustomTcpClient)
    (s : Socket) :
  e = SendPacketEv \/ e = ConnectionSucceededEv ->
  m_socket c = Some s ->
  0 <= m_packetsSent c < m_numPackets c ->
  m_numPackets c < 2 ^ 32 ->
  exists c' l,
    invoke e t c = (c', l) /\
    sends (map (pair t) l) = [(t, timestamp_packet t)] /\
    (forall q, fold_left (perform t) l q =
               insert_event (t + m_interval c) SendPacketEv q) /\
    m_packetsSent c' = m_packetsSent c + 1 /\
    m_numPackets c' = m_numPackets c /\
    m_interval c' = m_interval c /\
    m_socket c' = Some s.
Proof.
  intros [-> | ->] Hs Hn Hb; cbn [invoke].
  - rewrite (SendPacket_sends t c s) by (assumption || lia).
    eexists _, _. repeat split; cbn; try assumption.
    apply to_uint32_small. lia.
  - unfold ConnectionSucceeded.
    rewrite (SendPacket_sends t _ s) by (cbn; assumption || lia).
    eexists _, _. repeat split; cbn; try assumption.
    apply to_uint32_small. lia.
Qed.

(** The stop event alone: the socket is closed and nothing is left. *)
Lemma Run_stop_only (fuel : nat) (c : CustomTcpClient) (s : Socket)
    (tstop n0 : Time) (h : list (Time * Action)) :
  m_socket c = Some s ->
  (1 <= fuel)%nat ->
  let r := Run fuel {| Now := n0; events := [(tstop, StopApplicationEv)];
                       clientApp := c; history := h |} in
  events r = [] /\ m_socket (clientApp r) = None /\
  sends (history r) = sends h.
Proof.
  intros Hs Hf r. subst r. destruct fuel as [|fuel]; [lia|].
  cbn [Run ProcessOneEvent events clientApp history invoke].
  unfold StopApplication. rewrite Hs.
  cbn [fold_left perform map]. rewrite Run_no_events by reflexivity.
  cbn [events clientApp history m_socket]. rewrite sends_app.
  cbn. rewrite app_nil_r. repeat split.
Qed.

(** The stop event comes first: the send that is still pending finds the
    handle null. *)
Lemma Run_stop_first (fuel : nat) (c : CustomTcpClient) (s : Socket)
    (e : Event) (t tstop n0 : Time) (h : list (Time * Action)) :
  e = SendPacketEv \/ e = ConnectionSucceededEv ->
  m_socket c = Some s ->
  (2 <= fuel)%nat ->
  let r := Run fuel {| Now := n0;
                       events := [(tstop, StopApplicationEv); (t, e)];
                       clientApp := c; history := h |} in
  events r = [] /\ m_socket (clientApp r) = None /\
  sends (history r) = sends h.
Proof.
  intros He Hs Hf r. subst r. destruct fuel as [|fuel]; [lia|].
  cbn [Run ProcessOneEvent events clientApp history invoke].
  unfold StopApplication. rewrite Hs. cbn [fold_left perform map].
  match goal with |- context [Run fuel ?s1] => set (s1' := s1) end.
  assert (Hq : never_started (events s1') = true)
    by (destruct He as [-> | ->]; reflexivity).
  destruct (Run_stopped_quiet fuel s1' eq_refl Hq) as (R1 & _ & _ & R4 & R5).
  cbn [s1' history events length] in R1, R5.
  rewrite sends_app in R1. cbn in R1. rewrite app_nil_r in R1.
  split; [apply R5; lia|]. split; [exact R4|exact R1].
Qed.

(** A client that owes [k] packets, with its next [SendPacket] due at [t]
    and its stop due at [tstop]: it sends at [t], [t + interval], ... as long
    as these instants lie before [tstop], and then no more. *)
Lemma Run_until_stop (tstop : Time) (k : nat) :
  forall (fuel : nat) (c : CustomTcpClient) (s : Socket) (e : Event)
         (t n0 : Time) (h : list (Time * Action)),
    e = SendPacketEv \/ e = ConnectionSucceededEv ->
    m_socket c = Some s ->
    0 <= m_packetsSent c ->
    m_packetsSent c + Z.of_nat k = m_numPackets c ->
    m_numPackets c < 2 ^ 32 ->
    (k + 2 <= fuel)%nat ->
    let r := Run fuel {| Now := n0;
                         events := insert_event t e
                                     [(tstop, StopApplicationEv)];
                         clientApp := c; history := h |} in
    events r = [] /\ m_socket (clientApp r) = None /\
    exists j : nat,
      (j <= k)%nat /\
      sends (history r) =
        sends h ++ map (fun u => (u, timestamp_packet u))
                       (send_times t (m_interval c) j) /\
      Forall (fun u => u < tstop) (send_times t (m_interval c) j) /\
      (j = k \/ tstop <= t + Z.of_nat j * m_interval c).
Proof.
  induction k as [|k IH]; intros fuel c s e t n0 h He Hs H0 Hk Hn Hf r;
    subst r; cbn [insert_event];
    destruct (Z.ltb_spec t tstop) as [Hlt|Hge].
  - (* nothing owed, the send comes first *)
    destruct fuel as [|fuel]; [lia|].
    cbn [Run ProcessOneEvent events clientApp history].
    destruct (invoke_exhausted e t c s He Hs ltac:(lia))
      as (c' & l & -> & Hl & Hq & Hs').
    cbv beta iota. rewrite Hq.
    destruct (Run_stop_only fuel c' s tstop t (h ++ map (pair t) l) Hs'
                ltac:(lia)) as (E1 & E2 & E3).
    split; [exact E1|]. split; [exact E2|].
    exists 0%nat. split; [lia|].
    split; [|split; [constructor|now left]].
    etransitivity; [exact E3|].
    rewrite sends_app, Hl. reflexivity.
  - (* the stop comes first *)
    destruct (Run_stop_first fuel c s e t tstop n0 h He Hs ltac:(lia))
      as (E1 & E2 & E3).
    split; [exact E1|]. split; [exact E2|].
    exists 0%nat. split; [lia|].
    split; [|split; [constructor|right; cbn; lia]].
    etransitivity; [exact E3|]. cbn. now rewrite app_nil_r.
  - (* a packet is owed and its send comes first *)
    destruct fuel as [|fuel]; [lia|].
    cbn [Run ProcessOneEvent events clientApp history].
    destruct (invoke_sends e t c s He Hs ltac:(lia) Hn)
      as (c' & l & -> & Hl & Hq & Hp & Hn' & Hi & Hs').
    cbv beta iota. rewrite Hq.
    destruct (IH fuel c' s SendPacketEv (t + m_interval c) t
                 (h ++ map (pair t) l) (or_introl eq_refl) Hs'
                 ltac:(lia) ltac:(lia) ltac:(lia) ltac:(lia))
      as (E1 & E2 & j & Hj & E3 & E4 & E5).
    split; [exact E1|]. split; [exact E2|].
    exists (S j). split; [lia|].
    rewrite send_times_succ. rewrite Hi in E3, E4, E5.
    split; [|split; [constructor; assumption|]].
    + etransitivity; [exact E3|].
      rewrite sends_app, Hl, <- app_assoc. reflexivity.
    + destruct E5 as [-> | E5]; [now left|right; lia].
  - (* the stop comes first *)
    destruct (Run_stop_first fuel c s e t tstop n0 h He Hs ltac:(lia))
      as (E1 & E2 & E3).
    split; [exact E1|]. split; [exact E2|].
    exists 0%nat. split; [lia|].
    split; [|split; [constructor|right; cbn; lia]].
    etransitivity; [exact E3|]. cbn. now rewrite app_nil_r.
Qed.

(** X3: a flow that is stopped at [tstop] sends the packets of its schedule
    whose instants [tconn + i * interval] lie strictly before [tstop], in
    order, and none at or after [tstop]; it ends with the handle released
    and nothing scheduled. *)
Theorem stopped_flow_sends_before_stop
    (p0 n0 : Z) (addr : Address) (size rate duration : Z)
    (tstart tstop tconn : Time) (fuel : nat) :
  tstart <= tstop -> tstart <= tconn ->
  let c := Setup (CreateObject p0 n0) addr size rate duration in
  (Z.to_nat (m_numPackets c) + 3 <= fuel)%nat ->
  let r := Run fuel (stopped_flow c tstart tstop tconn) in
  events r = [] /\ m_socket (clientApp r) = None /\
  exists j : nat,
    (j <= Z.to_nat (m_numPackets c))%nat /\
    map fst (sends (history r)) = send_times tconn (m_interval c) j /\
    Forall (fun u => u < tstop) (send_times tconn (m_interval c) j) /\
    (j = Z.to_nat (m_numPackets c) \/
     tstop <= tconn + Z.of_nat j * m_interval c).
Proof.
  intros Hts Htc c Hf r. subst r.
  assert (Hn : 0 <= m_numPackets c < 2 ^ 32) by apply to_uint32_range.
  assert (Hq : events (stopped_flow c tstart tstop tconn) =
               (tstart, StartApplicationEv)
               :: insert_event tconn ConnectionSucceededEv
                    [(tstop, StopApplicationEv)]).
  { unfold stopped_flow. cbn [events insert_event].
    destruct (Z.ltb_spec tstop tstart); [lia|]. cbn [insert_event].
    destruct (Z.ltb_spec tconn tstart); [lia|reflexivity]. }
  destruct fuel as [|fuel]; [lia|].
  cbn [Run]. unfold ProcessOneEvent. rewrite Hq.
  cbn [invoke StartApplication clientApp stopped_flow history fold_left
       perform map List.app].
  match goal with |- context [Run fuel {| Now := _; events := _;
                                          clientApp := ?c1; history := ?h1 |}]
    => set (c1' := c1); set (h1' := h1) end.
  assert (Hp : 0 <= m_packetsSent c1') by (change (0 <= 0); lia).
  assert (Hk : m_packetsSent c1' + Z.of_nat (Z.to_nat (m_numPackets c)) =
               m_numPackets c1')
    by (change (0 + Z.of_nat (Z.to_nat (m_numPackets c)) = m_numPackets c);
        lia).
  assert (Hb : m_numPackets c1' < 2 ^ 32)
    by (change (m_numPackets c < 2 ^ 32); lia).
  assert (Hf' : (Z.to_nat (m_numPackets c) + 2 <= fuel)%nat) by lia.
  destruct (Run_until_stop tstop (Z.to_nat (m_numPackets c)) fuel c1'
              TcpSocket ConnectionSucceededEv tconn tstart h1'
              (or_intror eq_refl) eq_refl Hp Hk Hb Hf')
    as (E1 & E2 & j & Hj & E3 & E4 & E5).
  split; [exact E1|]. split; [exact E2|].
  exists j. split; [exact Hj|].
  split; [|split; [exact E4|exact E5]].
  etransitivity; [apply (f_equal (map fst) E3)|].
  cbn [h1' sends flat_map snd List.app map]. rewrite map_map. cbn [fst].
  apply map_id.
Qed.

End EarlyStop.

(** ** More on the timestamp header and the recorder *)

Lemma byte_of_Z_of_byte (b : Byte.byte) (v : Z) :
  byte_of_Z (Z_of_byte b + 256 * v) = b.
Proof.
  unfold byte_of_Z.
  pose proof (Z_of_byte_range b) as Hb.
  replace ((Z_of_byte b + 256 * v) mod 256) with (Z_of_byte b).
  - unfold Z_of_byte. rewrite N2Z.id, Byte.of_to_N. reflexivity.
  - rewrite Z.mul_comm, Z.mod_add by lia. symmetry. now apply Z.mod_small.
Qed.

Lemma le_bytes_le_value (bs : list Byte.byte) :
  le_bytes (length bs) (le_value bs) = bs.
Proof.
  induction bs as [|b bs IH]; [reflexivity|].
  cbn [length le_value le_bytes]. rewrite byte_of_Z_of_byte. f_equal.
  pose proof (Z_of_byte_range b) as Hb.
  replace ((Z_of_byte b + 256 * le_value bs) / 256) with (le_value bs);
    [exact IH|].
  rewrite Z.mul_comm, Z.div_add by lia. rewrite Z.div_small by lia. lia.
Qed.

Lemma object_bytes_object_value (o : ByteOrder) (bs : list Byte.byte) :
  object_bytes o (length bs) (object_value o bs) = bs.
Proof.
  destruct o; simpl; [apply le_bytes_le_value|].
  rewrite <- (length_rev bs), le_bytes_le_value. apply rev_involutive.
Qed.

Section RecorderProperties.
Context {host : Ns3Host}.

Lemma receive_all_samples (arrivals : list Arrival) (r : Recorder) :
  latencies (receive_all arrivals r) =
  latencies r ++ map sample_of (filter has_timestamp arrivals).
Proof.
  revert r. induction arrivals as [|[[now packet] from] rest IH]; intros r.
  - cbn. now rewrite app_nil_r.
  - unfold receive_all in *. cbn [fold_left fst snd filter].
    rewrite IH. unfold has_timestamp at 2. cbn [fst snd].
    destruct (Z.leb_spec 8 (GetSize packet)) as [Hle|Hlt].
    + rewrite PacketReceived_large by assumption.
      cbn [latencies map]. rewrite <- app_assoc. reflexivity.
    + rewrite PacketReceived_small by assumption. reflexivity.
Qed.

Lemma receive_all_log (arrivals : list Arrival) (r : Recorder) :
  length (recorder_log (receive_all arrivals r)) =
    (length (recorder_log r) + length arrivals)%nat /\
  length (filter is_warning (recorder_log (receive_all arrivals r))) =
    (length (filter is_warning (recorder_log r))
     + length (filter (fun a => negb (has_timestamp a)) arrivals))%nat.
Proof.
  revert r. induction arrivals as [|[[now packet] from] rest IH]; intros r.
  - cbn. lia.
  - unfold receive_all in *. cbn [fold_left fst snd filter length].
    destruct (IH (PacketReceived now packet from r)) as (L1 & L2).
    rewrite L1, L2. unfold has_timestamp at 2. cbn [fst snd].
    destruct (Z.leb_spec 8 (GetSize packet)) as [Hle|Hlt].
    + rewrite PacketReceived_large by assumption.
      cbn [recorder_log negb]. rewrite filter_app, !length_app. cbn. lia.
    + rewrite PacketReceived_small by assumption.
      cbn [recorder_log negb]. rewrite filter_app, !length_app. cbn. lia.
Qed.

(** X8: [latencies] is append-only and in arrival order.  After a sequence
    of arrivals it holds the samples it held before, untouched, followed by
    one sample for each arrival of at least 8 bytes, in the order of
    arrival. *)
Theorem latencies_in_arrival_order (arrivals : list Arrival) (r : Recorder) :
  latencies (receive_all arrivals r) =
  latencies r ++ map sample_of (filter has_timestamp arrivals).
Proof. exact (receive_all_samples arrivals r). Qed.

(** X9: every arrival is accounted for in the log: each one produces one
    log record, and the warnings are as many as the arrivals of fewer than
    8 bytes. *)
Theorem every_arrival_is_logged (arrivals : list Arrival) :
  length (recorder_log (receive_all arrivals no_samples)) = length arrivals /\
  length (filter is_warning (recorder_log (receive_all arrivals no_samples))) =
    length (filter (fun a => negb (has_timestamp a)) arrivals) /\
  (length (latencies (receive_all arrivals no_samples))
   + length (filter is_warning
               (recorder_log (receive_all arrivals no_samples))))%nat
  = length arrivals.
Proof.
  destruct (receive_all_log arrivals no_samples) as (L1 & L2).
  cbn [no_samples recorder_log filter length Nat.add] in L1, L2.
  split; [exact L1|]. split; [exact L2|].
  rewrite L2, receive_all_samples, length_app, length_map.
  cbn [no_samples latencies length Nat.add].
  apply filter_length.
Qed.

Lemma packet_timestamp_app (stamp tail : Packet) :
  length stamp = sizeof_uint64 ->
  packet_timestamp (stamp ++ tail) = object_value host_order stamp.
Proof.
  intros H. unfold packet_timestamp, CopyData.
  rewrite firstn_app, H, Nat.sub_diag, firstn_O, app_nil_r.
  rewrite firstn_all2 by lia. reflexivity.
Qed.

(** X10: the recorder reads the first 8 bytes of an arrival and nothing
    else.  Whatever follows the stamp of a packet sent at [t], be it padding
    or further packets that TCP delivered in the same segment, the arrival
    yields the one sample of the first stamp. *)
Theorem PacketReceived_reads_first_stamp_only
    (now t : Time) (tail : Packet) (from : Address) (r : Recorder) :
  latencies (PacketReceived now (timestamp_packet t ++ tail) from r) =
  latencies r ++ [GetSeconds (now - to_uint64 t)].
Proof.
  assert (Hlen : length (timestamp_packet t) = sizeof_uint64)
    by (rewrite timestamp_packet_bytes; apply object_bytes_length).
  rewrite PacketReceived_large.
  - cbn [latencies]. rewrite packet_timestamp_app by exact Hlen.
    pose proof (packet_timestamp_of_timestamp_packet t) as Hd.
    unfold packet_timestamp, CopyData in Hd.
    rewrite firstn_all2 in Hd by lia. rewrite Hd. reflexivity.
  - unfold GetSize. rewrite length_app, Hlen. unfold sizeof_uint64. lia.
Qed.

(** X12: the receiver's decoding loses nothing.  Encoding the timestamp
    that was read from an 8-byte payload gives back that payload, so two
    8-byte payloads with the same timestamp are the same bytes. *)
Theorem timestamp_packet_of_packet_timestamp (p : Packet) :
  length p = sizeof_uint64 ->
  timestamp_packet (NanoSeconds (packet_timestamp p)) = p.
Proof.
  intros Hlen.
  assert (Hv : packet_timestamp p = object_value host_order p).
  { unfold packet_timestamp, CopyData. now rewrite firstn_all2 by lia. }
  rewrite timestamp_packet_bytes. unfold NanoSeconds, GetNanoSeconds.
  rewrite Hv, to_uint64_small.
  - rewrite <- Hlen. apply object_bytes_object_value.
  - pose proof (object_value_range host_order p) as Hr.
    rewrite Hlen in Hr. exact Hr.
Qed.

Lemma receive_all_delayed (delay : Time) (from : Address)
    (times : list Time) :
  Forall (fun u => 0 <= u < 2 ^ 64) times ->
  forall r : Recorder,
    latencies
      (receive_all
         (deliver delay from (map (fun u => (u, timestamp_packet u)) times))
         r) =
    latencies r ++ repeat (GetSeconds delay) (length times).
Proof.
  induction 1 as [|u times Hu _ IH]; intros r.
  - cbn. now rewrite app_nil_r.
  - unfold receive_all, deliver in *. cbn [map fold_left fst snd].
    rewrite IH.
    rewrite PacketReceived_large by (rewrite timestamp_packet_size; lia).
    cbn [latencies length repeat].
    rewrite packet_timestamp_of_timestamp_packet.
    unfold GetNanoSeconds, NanoSeconds. rewrite to_uint64_small by exact Hu.
    replace (u + delay - u) with delay by lia.
    rewrite <- app_assoc. reflexivity.
Qed.

(** X11: generator, transit and recorder end to end.  When every packet of
    a flow arrives a fixed [delay] after it was sent, and the send instants
    fit an unsigned 64-bit nanosecond count, the recorder ends up with one
    sample per packet, each the conversion of [delay] to seconds. *)
Theorem flow_latencies_with_fixed_delay
    (p0 n0 : Z) (addr from : Address) (size rate duration : Z)
    (tstart tconn delay : Time) (fuel : nat) :
  tstart <= tconn ->
  0 <= tconn ->
  let c := Setup (CreateObject p0 n0) addr size rate duration in
  0 <= m_interval c ->
  tconn + m_numPackets c * m_interval c < 2 ^ 64 ->
  (Z.to_nat (m_numPackets c) + 2 <= fuel)%nat ->
  let r := Run fuel (flow c tstart tconn) in
  latencies (receive_all (deliver delay from (sends (history r))) no_samples)
  = repeat (GetSeconds delay) (Z.to_nat (m_numPackets c)).
Proof.
  intros Ht H0 c Hi Hmax Hf r.
  assert (Hn : 0 <= m_numPackets c < 2 ^ 32) by apply to_uint32_range.
  destruct (Run_flow c tstart tconn fuel Ht eq_refl Hn Hf) as (_ & E2 & _).
  fold r in E2. rewrite E2, receive_all_delayed.
  - rewrite send_times_length. reflexivity.
  - unfold send_times. apply Forall_forall. intros u Hu.
    apply in_map_iff in Hu. destruct Hu as (i & <- & Hin).
    apply in_seq in Hin.
    assert (Z.of_nat i * m_interval c <= m_numPackets c * m_interval c)
      by (apply Z.mul_le_mono_nonneg_r; lia).
    assert (0 <= Z.of_nat i * m_interval c) by (apply Z.mul_nonneg_nonneg; lia).
    lia.
Qed.

End RecorderProperties.

(** ** Further theorems at concrete inputs *)

Lemma Run_after_stop_leftover :
  (m_socket (clientApp leftover_callbacks) = None /\
   never_started (events leftover_callbacks) = true /\
   (length (events leftover_callbacks) <= 5)%nat) /\
  (let r := Run 5 leftover_callbacks in
   sends (history r) = sends (history leftover_callbacks) /\
   scheduled (history r) = scheduled (history leftover_callbacks) /\
   m_packetsSent (clientApp r) = m_packetsSent (clientApp leftover_callbacks) /\
   m_socket (clientApp r) = None /\
   events r = []).
Proof.
  assert (Hs : m_socket (clientApp leftover_callbacks) = None)
    by reflexivity.
  assert (Hq : never_started (events leftover_callbacks) = true)
    by reflexivity.
  assert (Hl : (length (events leftover_callbacks) <= 5)%nat)
    by (vm_compute; lia).
  split; [exact (conj Hs (conj Hq Hl))|].
  destruct (Run_after_stop 5 leftover_callbacks Hs Hq)
    as (E1 & E2 & E3 & E4 & E5).
  exact (conj E1 (conj E2 (conj E3 (conj E4 (E5 Hl))))).
Defined.

Lemma stopped_flow_sends_before_stop_main :
  (main_start <= early_stop /\ main_start <= main_connected /\
   (Z.to_nat (m_numPackets main_client) + 3 <= 103)%nat) /\
  (let c := main_client in
   let r := Run 103 (stopped_flow c main_start early_stop main_connected) in
   events r = [] /\ m_socket (clientApp r) = None /\
   exists j : nat,
     (j <= Z.to_nat (m_numPackets c))%nat /\
     map fst (sends (history r)) = send_times main_connected (m_interval c) j /\
     Forall (fun u => u < early_stop)
            (send_times main_connected (m_interval c) j) /\
     (j = Z.to_nat (m_numPackets c) \/
      early_stop <= main_connected + Z.of_nat j * m_interval c)).
Proof.
  assert (H1 : main_start <= early_stop) by (vm_compute; discriminate).
  assert (H2 : main_start <= main_connected) by (vm_compute; discriminate).
  assert (H3 : (Z.to_nat (m_numPackets main_client) + 3 <= 103)%nat)
    by (vm_compute; lia).
  split; [exact (conj H1 (conj H2 H3))|].
  exact (stopped_flow_sends_before_stop 0 0 main_serverAddress 100 10 10
           main_start early_stop main_connected 103 H1 H2 H3).
Defined.

Lemma failed_flow_sends_nothing_main :
  (2 <= 5)%nat /\
  (let r := Run 5 (failed_flow main_client main_start main_connected) in
   sends (history r) = [] /\
   scheduled (history r) = [] /\
   m_packetsSent (clientApp r) = m_packetsSent main_client /\
   events r = [] /\
   connects (history r) = [(main_start, m_serverAddress main_client)]).
Proof.
  assert (H : (2 <= 5)%nat) by lia.
  split; [exact H|].
  destruct (failed_flow_sends_nothing main_client main_start main_connected 5)
    as (E1 & E2 & E3 & E4).
  destruct (E4 H) as (E5 & E6).
  exact (conj E1 (conj E2 (conj E3 (conj E5 E6)))).
Defined.

Lemma Run_counts_sends_main :
  counters_ok (clientApp main_flow) /\
  (let r := Run 50 main_flow in
   m_packetsSent (clientApp r) - m_packetsSent (clientApp main_flow) =
     Z.of_nat (length (sends (history r)))
     - Z.of_nat (length (sends (history main_flow))) /\
   m_packetsSent (clientApp main_flow) <= m_packetsSent (clientApp r)
                                       <= m_numPackets (clientApp main_flow)).
Proof.
  assert (H : counters_ok (clientApp main_flow))
    by (change (0 <= 0 <= 100 /\ 100 < 2 ^ 32); lia).
  split; [exact H|].
  exact (Run_counts_sends 50 main_flow H).
Defined.

Lemma Run_reschedules_once_per_send_main :
  scheduled (history main_flow) =
    map (reschedule_of (m_interval (clientApp main_flow)))
        (sends (history main_flow)) /\
  scheduled (history (Run 50 main_flow)) =
    map (reschedule_of (m_interval (clientApp main_flow)))
        (sends (history (Run 50 main_flow))).
Proof.
  assert (H : scheduled (history main_flow) =
              map (reschedule_of (m_interval (clientApp main_flow)))
                  (sends (history main_flow))) by reflexivity.
  split; [exact H|].
  exact (Run_reschedules_once_per_send 50 main_flow H).
Defined.

Lemma Run_packets_carry_send_time_main :
  Forall stamped (sends (history main_flow)) /\
  Forall (fun tp => GetSize (snd tp) = 8 /\
                    packet_timestamp (snd tp) = to_uint64 (fst tp))
         (sends (history (Run 50 main_flow))).
Proof.
  assert (H : Forall stamped (sends (history main_flow)))
    by (simpl; constructor).
  split; [exact H|].
  exact (Run_packets_carry_send_time 50 main_flow H).
Defined.

Lemma timestamp_packet_of_packet_timestamp_stamp5 :
  length stamp5_packet = sizeof_uint64 /\
  timestamp_packet (NanoSeconds (packet_timestamp stamp5_packet)) =
    stamp5_packet.
Proof.
  assert (H : length stamp5_packet = sizeof_uint64) by reflexivity.
  split; [exact H|].
  exact (timestamp_packet_of_packet_timestamp stamp5_packet H).
Defined.

Lemma flow_latencies_with_fixed_delay_main :
  (main_start <= main_connected /\ 0 <= main_connected /\
   0 <= m_interval main_client /\
   main_connected + m_numPackets main_client * m_interval main_client
     < 2 ^ 64 /\
   (Z.to_nat (m_numPackets main_client) + 2 <= 102)%nat) /\
  (let c := main_client in
   let r := Run 102 (flow c main_start main_connected) in
   latencies (receive_all (deliver link_delay main_serverAddress
                                   (sends (history r))) no_samples)
   = repeat (GetSeconds link_delay) (Z.to_nat (m_numPackets c))).
Proof.
  assert (H1 : main_start <= main_connected) by (vm_compute; discriminate).
  assert (H2 : 0 <= main_connected) by (vm_compute; discriminate).
  assert (H3 : 0 <= m_interval main_client) by (vm_compute; discriminate).
  assert (H4 : main_connected
               + m_numPackets main_client * m_interval main_client < 2 ^ 64)
    by (vm_compute; reflexivity).
  assert (H5 : (Z.to_nat (m_numPackets main_client) + 2 <= 102)%nat)
    by (vm_compute; lia).
  split; [exact (conj H1 (conj H2 (conj H3 (conj H4 H5))))|].
  exact (flow_latencies_with_fixed_delay 0 0 main_serverAddress
           main_serverAddress 100 10 10 main_start main_connected link_delay
           102 H1 H2 H3 H4 H5).
Defined.

(** The run of [main] stopped at 2.35 s sends four packets. *)
Example main_stopped_flow_sends :
  map fst (sends (history (Run 103 main_stopped_flow))) =
  [2000100000; 2100100000; 2200100000; 2300100000].
Proof. vm_compute. reflexivity. Qed.
